(** * agent.py: local tools, agent configuration and console loop

    A shallow embedding of [agent.py].  Python [str] values are sequences
    of Unicode code points, modelled as [list N]; a [dict] is a [gmap];
    [print], [input], the runner and the exit stack act on an explicit
    world and leave a trace, threaded through a small exception monad;
    each of them can raise. *)

From Stdlib Require Import NArith String Ascii List Lia.
From stdpp Require Import gmap list.
Import ListNotations.

Local Open Scope N_scope.

(** ** Python strings *)

Module PyStr.

(** A [str] literal of the source whose characters are all ASCII. *)
Definition lit (s : string) : list N :=
  map N_of_ascii (list_ascii_of_string s).

(** [Py_UNICODE_ISSPACE]: the code points [str.strip()] removes. *)
Definition isspace (c : N) : bool :=
  ((0x09 <=? c) && (c <=? 0x0D)) || ((0x1C <=? c) && (c <=? 0x20))
  || (c =? 0x85) || (c =? 0xA0) || (c =? 0x1680)
  || ((0x2000 <=? c) && (c <=? 0x200A))
  || (c =? 0x2028) || (c =? 0x2029) || (c =? 0x202F) || (c =? 0x205F)
  || (c =? 0x3000).

Fixpoint lstrip (s : list N) : list N :=
  match s with
  | c :: s' => if isspace c then lstrip s' else s
  | [] => []
  end.

Definition rstrip (s : list N) : list N := rev (lstrip (rev s)).

(** [s.strip()] *)
Definition strip (s : list N) : list N := rstrip (lstrip s).

(** The interpreter's Unicode database: the full lower-case mapping of a
    code point outside ASCII, given the text before and after it (the
    capital sigma is lowered according to its position in the word). *)
Class UnicodeDB := {
  tolower_full : list N -> N -> list N -> list N
}.

Definition ascii_lower (c : N) : N :=
  if (0x41 <=? c) && (c <=? 0x5A) then c + 32 else c.

Section Lower.
Context `{UnicodeDB}.

Definition lower_ucs4 (before : list N) (c : N) (after : list N) : list N :=
  if c <? 128 then [ascii_lower c] else tolower_full before c after.

Fixpoint lower_from (before s : list N) : list N :=
  match s with
  | [] => []
  | c :: after => lower_ucs4 before c after ++ lower_from (before ++ [c]) after
  end.

(** [s.lower()] *)
Definition lower (s : list N) : list N := lower_from [] s.
End Lower.

(** Two entries of the database, enough to run examples: the Kelvin sign
    lowers to [k], the dotted capital I to [i] and a combining dot.  The
    excerpt lists no other entry and leaves every other code point as it
    is, so it stands for the interpreter's table only on text whose
    characters outside ASCII are these two or have no lower-case form. *)
Definition excerpt_tolower (before : list N) (c : N) (after : list N) : list N :=
  if c =? 0x212A then [0x6B]
  else if c =? 0x130 then [0x69; 0x307]
  else [c].

Definition excerpt_db : UnicodeDB := {| tolower_full := excerpt_tolower |}.

End PyStr.

Import PyStr.

(** ** Effects *)

Inductive exn : Type :=
| EOFError
| KeyboardInterrupt
| UnicodeEncodeError
| ValueError
| OSError
| OtherError (name : list N).

Record Part := { text : list N }.
Record Content := { role : list N; parts : list Part }.

(** What the program does to the outside, in order. *)
Inductive io_event : Type :=
| Stdout (line : list N)                       (* print(line), whether or not it raised *)
| ReadLine (prompt : list N)                   (* input(prompt) *)
| RunnerRun (session_id user_id : list N) (new_message : Content)
| Aclose.                                      (* asyncio.run(flight_exit_stack.aclose()) *)

Inductive result (A : Type) : Type :=
| Ok (a : A)
| Raise (e : exn).
Arguments Ok {A} a.
Arguments Raise {A} e.

(** A computation over a world [W] (whatever the framework and the
    subprocess keep): the events it emits, the world it leaves, and a
    value or the exception that ended it. *)
Definition io (W A : Type) : Type := W -> list io_event * W * result A.

Section Monad.
Context {W : Type}.

Definition ret {A} (a : A) : io W A := fun w => ([], w, Ok a).

Definition raise {A} (e : exn) : io W A := fun w => ([], w, Raise e).

Definition bind {A B} (m : io W A) (k : A -> io W B) : io W B := fun w =>
  match m w with
  | (t, w', Ok a) => let '(t', w'', r) := k a w' in (t ++ t', w'', r)
  | (t, w', Raise e) => (t, w', Raise e)
  end.

Definition emit (ev : io_event) : io W unit := fun w => ([ev], w, Ok tt).

(** [try: body finally: fin]: [fin] runs however [body] ends; an
    exception of [fin] replaces the outcome of [body]. *)
Definition try_finally {A} (body : io W A) (fin : io W unit) : io W A := fun w =>
  let '(t, w', r) := body w in
  match fin w' with
  | (t', w'', Ok _) => (t ++ t', w'', r)
  | (t', w'', Raise e) => (t ++ t', w'', Raise e)
  end.
End Monad.

Declare Scope io_scope.
Delimit Scope io_scope with io.
Notation "x <- m ;; k" := (bind m (fun x => k))
  (at level 100, m at next level, k at level 200, right associativity,
   only parsing) : io_scope.
Notation "m ;; k" := (bind m (fun _ => k))
  (at level 100, k at level 200, right associativity, only parsing) : io_scope.
Local Open Scope io_scope.

(** Standard output as part of the world: writing a line changes the
    world and may raise ([UnicodeEncodeError] on text the stream cannot
    encode, [ValueError] on a closed stream, [OSError] on a full or broken
    one). *)
Class Console (W : Type) := {
  stdout_write : list N -> W -> W * option exn
}.

(** [print(line)] *)
Definition print {W : Type} `{Console W} (line : list N) : io W unit := fun w =>
  let '(w', err) := stdout_write line w in
  ([Stdout line], w',
   match err with
   | None => Ok tt
   | Some e => Raise e
   end).

Definition trace {W A} (o : list io_event * W * result A) : list io_event := o.1.1.
Definition outcome {W A} (o : list io_event * W * result A) : result A := o.2.

(** ** The agent framework, as far as the script uses it *)

Record StdioServerParameters := {
  command : list N;
  args : list (list N);
  env : gmap (list N) (option (list N))
}.

Record Session := { id : list N; user_id : list N }.

(** What [runner.run(...)] returns: a generator.  Asked for its next
    event it stops, raises, or yields an event; when the caller comes back
    for more, in the world as it then is, the generator acts on that world
    and goes on.  It yields finitely many events. *)
Inductive gen (W E : Type) : Type :=
| Stop
| Throw (e : exn)
| Yield (evt : E) (resume_world : W -> W) (resume : W -> gen W E).
Arguments Stop {W E}.
Arguments Throw {W E} e.
Arguments Yield {W E} evt resume_world resume.

Class ADK := {
  World : Type;
  Tool : Type;
  ExitStack : Type;
  Event : Type;
  (** [sys.stdout] *)
  console :: Console World;
  (** [str(evt)], what [print(evt)] writes *)
  event_str : Event -> list N;
  (** [await MCPToolset.from_server(connection_params=...)] *)
  from_server : StdioServerParameters -> World -> World * result (list Tool * ExitStack);
  (** [session_service.create_session(state={}, app_name=..., user_id=...)] *)
  create_session : list N -> list N -> Session;
  (** [runner.run(session_id=..., user_id=..., new_message=...)] up to
      its first event *)
  runner_run : list N -> list N -> Content -> World -> World * gen World Event;
  (** [asyncio.run(exit_stack.aclose())] *)
  aclose : ExitStack -> World -> World * option exn
}.

Record LlmAgent `{ADK} := {
  model : list N;
  name : list N;
  instruction : list N;
  tools : list Tool
}.

(** ** agent.py *)

Module Agent.

(** [os.getenv(key)] and [os.getenv(key, default)] over [os.environ]. *)
Definition getenv (environ : gmap (list N) (list N)) (key : list N)
  : option (list N) := environ !! key.

Definition getenv_or (environ : gmap (list N) (list N)) (key dflt : list N)
  : list N :=
  match environ !! key with
  | Some v => v
  | None => dflt
  end.

Section Startup.
Context `{ADK}.

(** [await MCPToolset.from_server(connection_params=server_params)] *)
Definition connect (server_params : StdioServerParameters)
  : io World (list Tool * ExitStack) := fun w =>
  let '(w', r) := from_server server_params w in ([], w', r).

(** [async def create_flight_search_agent()] *)
Definition create_flight_search_agent (environ : gmap (list N) (list N))
  : io World (LlmAgent * ExitStack) :=
  let server_params :=
    {| command := lit "mcp-flight-search";
       args := [lit "--connection_type"; lit "stdio"];
       env := {[ lit "SERP_API_KEY" := getenv environ (lit "SERP_API_KEY") ]} |} in
  connected <- connect server_params ;;
  let '(tools, exit_stack) := connected in
  let flight_agent :=
    {| model := getenv_or environ (lit "GEMINI_MODEL") (lit "gemini-2.5-pro-exp-03-25");
       name := lit "flight_search_agent";
       instruction :=
         lit "Help the user search for flights using the available tools. "
         ++ lit "If no return date is specified, treat it as a one-way trip.";
       tools := tools |} in
  ret (flight_agent, exit_stack).
End Startup.

(** *** Local tool functions *)

Section Tools.
Context {W : Type} `{Console W}.

(** [def say_hello(name: str = "there") -> str] *)
Definition say_hello (name : option (list N)) : io W (list N) :=
  let name := default (lit "there") name in
  print (lit "--- Tool: say_hello called with name: " ++ name ++ lit " ---") ;;
  ret (lit "Hello, " ++ name ++ lit "!").

(** [def say_goodbye() -> str] *)
Definition say_goodbye : io W (list N) :=
  print (lit "--- Tool: say_goodbye called ---") ;;
  ret (lit "Goodbye! Have a great day.").
End Tools.

(** The report literal: its two characters before the final [C.] are
    U+00C2 and U+00B0 in the source file. *)
Definition new_york_report : list N :=
  lit "The weather in New York is sunny at 25" ++ [0xC2; 0xB0] ++ lit "C.".

Section GetWeather.
Context `{UnicodeDB}.

(** [def get_weather(city: str) -> dict] *)
Definition get_weather (city : list N) : gmap (list N) (list N) :=
  if decide (lower city = lit "new york") then
    <[lit "report" := new_york_report]> (<[lit "status" := lit "success"]> ∅)
  else
    <[lit "error_message" := lit "Weather for '" ++ city ++ lit "' not available."]>
      (<[lit "status" := lit "error"]> ∅).
End GetWeather.

(** *** Main loop *)

(** One call of [input()]: the line it returns, or the exception it
    raises (the prompt could not be written, the user interrupted; the end
    of input is the empty list). *)
Inductive input_result : Type :=
| Line (s : list N)
| InputRaises (e : exn).

Section Main.
Context `{UnicodeDB} `{ADK}.

Definition session : Session :=
  create_session (lit "multi_agent_app") (lit "user_1").

(** [input(prompt)], reading [r]; at the end of standard input it
    raises [EOFError]. *)
Definition input (prompt : list N) (r : option input_result) : io World (list N) :=
  emit (ReadLine prompt) ;;
  match r with
  | Some (Line s) => ret s
  | Some (InputRaises e) => raise e
  | None => raise EOFError
  end.

(** [user_input.strip().lower() in ("exit", "quit")] *)
Definition exit_requested (user_input : list N) : bool :=
  bool_decide (lower (strip user_input) ∈ [lit "exit"; lit "quit"]).

(** [for evt in events: print(evt)] *)
Fixpoint print_events (events : gen World Event) : io World unit :=
  match events with
  | Stop => ret tt
  | Throw e => raise e
  | Yield evt resume_world resume =>
      print (event_str evt) ;;
      (fun w => print_events (resume w) (resume_world w))
  end.

(** [events = runner.run(...)] followed by the [for] loop *)
Definition run_and_print (content : Content) : io World unit := fun w =>
  let '(w', events) := runner_run (id session) (user_id session) content w in
  let '(t, w'', r) := print_events events w' in
  (RunnerRun (id session) (user_id session) content :: t, w'', r).

(** The [while True:] loop over what standard input holds; leaving the
    match with [ret tt] is the [break]. *)
Fixpoint main_loop (stdin : list input_result) : io World unit :=
  match stdin with
  | [] => _ <- input (lit "User: ") None ;; ret tt
  | r :: rest =>
      user_input <- input (lit "User: ") (Some r) ;;
      if exit_requested user_input then ret tt
      else
        let content := {| role := lit "user"; parts := [ {| text := user_input |} ] |} in
        run_and_print content ;;
        main_loop rest
  end.

(** [asyncio.run(flight_exit_stack.aclose())] *)
Definition teardown (flight_exit_stack : ExitStack) : io World unit := fun w =>
  let '(w', err) := aclose flight_exit_stack w in
  ([Aclose], w',
   match err with
   | None => Ok tt
   | Some e => Raise e
   end).

(** The body of [if __name__ == "__main__":] *)
Definition main (flight_exit_stack : ExitStack) (stdin : list input_result)
  : io World unit :=
  print (lit "Multi-Agent Flight Search App Type 'exit' to quit.") ;;
  try_finally (main_loop stdin)
    (print (lit "Shutting down MCP connection...") ;;
     teardown flight_exit_stack ;;
     print (lit "Shutdown complete.")).
End Main.

End Agent.

Import Agent.

(** ** Stand-in frameworks, to run the script on *)

(** A runner that answers a message by one event that repeats its text,
    and raises on the text [boom] before yielding anything.  The world
    counts its calls. *)
Definition echo_runner (session_id user_id : list N) (new_message : Content)
  (w : nat) : nat * gen nat (list N) :=
  match parts new_message with
  | p :: _ =>
      if decide (text p = lit "boom")
      then (S w, Throw (OtherError (lit "RuntimeError")))
      else (S w, Yield (lit "event: " ++ text p) (fun w' => w') (fun _ => Stop))
  | [] => (S w, Stop)
  end.

(** Standard output never fails here. *)
Definition echo_adk : ADK := {|
  World := nat;
  Tool := list N;
  ExitStack := unit;
  Event := list N;
  console := {| stdout_write := fun _ w => (w, None) |};
  event_str := fun evt => evt;
  from_server := fun _ w => (w, Ok ([lit "search_flights"], tt));
  create_session := fun _ user => {| id := lit "session-1"; user_id := user |};
  runner_run := echo_runner;
  aclose := fun _ w => (w, None)
|}.

(** A text stream in UTF-8: closed, or open with room for some number of
    lines yet ([None]: no limit). *)
Inductive stdout_state : Type :=
| Closed
| Open (room : option nat).

Definition is_surrogate (c : N) : bool := (0xD800 <=? c) && (c <=? 0xDFFF).

Definition utf8_write (line : list N) (out : stdout_state)
  : stdout_state * option exn :=
  match out with
  | Closed => (Closed, Some ValueError)
  | Open room =>
      if existsb is_surrogate line then (out, Some UnicodeEncodeError)
      else
        match room with
        | None => (out, None)
        | Some O => (out, Some OSError)
        | Some (S n) => (Open (Some n), None)
        end
  end.

Definition utf8_console : Console stdout_state := {| stdout_write := utf8_write |}.

(** A world with such a stream; it counts the calls of the runner and of
    [aclose]. *)
Record piped := { out : stdout_state; runs : nat; closes : nat }.

Definition piped_adk : ADK := {|
  World := piped;
  Tool := list N;
  ExitStack := unit;
  Event := list N;
  console := {| stdout_write := fun line w =>
                  let '(o, err) := utf8_write line (out w) in
                  ({| out := o; runs := runs w; closes := closes w |}, err) |};
  event_str := fun evt => evt;
  from_server := fun _ w => (w, Ok ([lit "search_flights"], tt));
  create_session := fun _ user => {| id := lit "session-1"; user_id := user |};
  runner_run := fun _ _ new_message w =>
    ({| out := out w; runs := S (runs w); closes := closes w |},
     match parts new_message with
     | p :: _ => Yield (lit "event: " ++ text p) (fun w' => w') (fun _ => Stop)
     | [] => Stop
     end);
  aclose := fun _ w =>
    ({| out := out w; runs := runs w; closes := S (closes w) |}, None)
|}.

(** ** Vocabulary of the properties *)

(** The database gives white space no other lower-case form. *)
Definition keeps_whitespace (db : UnicodeDB) : Prop :=
  forall before c after, isspace c = true -> tolower_full before c after = [c].

Definition is_stdout (ev : io_event) : bool :=
  match ev with
  | Stdout _ => true
  | _ => false
  end.

Definition is_aclose (ev : io_event) : bool :=
  match ev with
  | Aclose => true
  | _ => false
  end.

(** How many times a trace runs the teardown. *)
Definition teardowns (t : list io_event) : nat := length (List.filter is_aclose t).

(** ** The agents the script configures *)

(** An entry of a [tools=[...]] list: a function of the script, known to
    the framework by its name, or a tool the subprocess offers. *)
Inductive tool_ref `{ADK} : Type :=
| FunctionTool (fn : list N)
| McpTool (t : Tool).

(** An agent object with what the script sets on it. *)
#[warnings="-register-all"]
Inductive agent `{ADK} : Type :=
| MkAgent (agent_name agent_model agent_instruction agent_description : list N)
          (agent_tools : list tool_ref) (sub_agents : list agent).

Section Agents.
Context `{ADK}.

Definition agent_name (a : agent) : list N :=
  match a with MkAgent n _ _ _ _ _ => n end.

Definition agent_instruction (a : agent) : list N :=
  match a with MkAgent _ _ i _ _ _ => i end.

Definition agent_tools (a : agent) : list tool_ref :=
  match a with MkAgent _ _ _ _ t _ => t end.

Definition sub_agents (a : agent) : list agent :=
  match a with MkAgent _ _ _ _ _ s => s end.

(** The [LlmAgent] built at start-up, seen as a node of the tree: it has
    no description and no sub-agents. *)
Definition as_agent (a : LlmAgent) : agent :=
  MkAgent (name a) (model a) (instruction a) [] (map McpTool (tools a)) [].

Definition greeting_agent : agent :=
  MkAgent (lit "greeting_agent") (lit "gemini-2.0-flash")
    (lit "You are the Greeting Agent. Use say_hello tool to greet.")
    (lit "Provides greetings.")
    [FunctionTool (lit "say_hello")] [].

Definition farewell_agent : agent :=
  MkAgent (lit "farewell_agent") (lit "gemini-2.0-flash")
    (lit "You are the Farewell Agent. Use say_goodbye tool to say goodbye.")
    (lit "Provides farewells.")
    [FunctionTool (lit "say_goodbye")] [].

Definition root_instruction : list N :=
  lit "You are the Root Agent orchestrating sub-agents. "
  ++ lit "- Delegate greetings (Hi, Hello) to greeting_agent. "
  ++ lit "- Delegate farewells (Bye, See you) to farewell_agent. "
  ++ lit "- Delegate flight search queries (e.g. 'find flights', 'search for flights') to flight_search_agent. "
  ++ lit "- Handle weather requests using get_weather tool. "
  ++ lit "- If unable to handle, respond that you cannot handle the request.".

Definition root_agent (flight_search_agent : LlmAgent) : agent :=
  MkAgent (lit "root_agent") (lit "gemini-2.0-flash-exp") root_instruction
    (lit "Coordinator agent for greetings, weather, farewells, and flight search.")
    [FunctionTool (lit "get_weather")]
    [greeting_agent; farewell_agent; as_agent flight_search_agent].
End Agents.

(** A framework whose tool subprocess cannot be reached. *)
Definition offline_adk : ADK := {|
  World := nat;
  Tool := list N;
  ExitStack := unit;
  Event := list N;
  console := {| stdout_write := fun _ w => (w, None) |};
  event_str := fun evt => evt;
  from_server := fun _ w => (S w, Raise (OtherError (lit "FileNotFoundError")));
  create_session := fun _ user => {| id := lit "session-1"; user_id := user |};
  runner_run := echo_runner;
  aclose := fun _ w => (w, Some (OtherError (lit "RuntimeError")))
|}.

(** ** More vocabulary *)

(** Where a text occurs inside another. *)
Definition occurs_in (p s : list N) : Prop :=
  exists before after, s = before ++ p ++ after.

Fixpoint starts_with (p s : list N) : bool :=
  match p, s with
  | [], _ => true
  | a :: p', b :: s' => (a =? b) && starts_with p' s'
  | _ :: _, [] => false
  end.

Fixpoint find_in (p s : list N) : bool :=
  starts_with p s ||
  match s with
  | [] => false
  | _ :: s' => find_in p s'
  end.

Definition is_runner_run (ev : io_event) : bool :=
  match ev with
  | RunnerRun _ _ _ => true
  | _ => false
  end.

(** The calls of the runner in a trace, in order. *)
Definition runner_calls (t : list io_event) : list io_event :=
  List.filter is_runner_run t.

Section LoopVocabulary.
Context `{UnicodeDB} `{ADK}.

(** The message the loop builds from a line. *)
Definition user_message (user_input : list N) : io_event :=
  RunnerRun (id session) (user_id session)
    {| role := lit "user"; parts := [ {| text := user_input |} ] |}.

(** The lines typed before the first exit line, failed read or end of
    input. *)
Fixpoint lines_before_exit (stdin : list input_result) : list (list N) :=
  match stdin with
  | Line u :: rest => if exit_requested u then [] else u :: lines_before_exit rest
  | _ => []
  end.
End LoopVocabulary.

(** * Properties *)

(** ** The weather lookup *)

Section WeatherFacts.
Context `{UnicodeDB}.

Lemma get_weather_hit (city : list N) :
  lower city = lit "new york" ->
  get_weather city =
    <[lit "report" := new_york_report]> (<[lit "status" := lit "success"]> ∅).
Proof. intros E. unfold get_weather. rewrite decide_True; auto. Qed.

Lemma get_weather_miss (city : list N) :
  lower city <> lit "new york" ->
  get_weather city =
    <[lit "error_message" := lit "Weather for '" ++ city ++ lit "' not available."]>
      (<[lit "status" := lit "error"]> ∅).
Proof. intros E. unfold get_weather. rewrite decide_False; auto. Qed.

(** Lowering touches an ASCII literal through [ascii_lower] only, so the
    two spellings of the spec match whatever the database holds. *)
Lemma lower_New_York : lower (lit "New York") = lit "new york".
Proof. reflexivity. Qed.

Lemma lower_new_york : lower (lit "new york") = lit "new york".
Proof. reflexivity. Qed.

(** C1: every city whose lowered form is "new york" (so "New York" and
    "new york") gets the status "success" and one fixed report, the same
    for all such inputs. *)
Theorem get_weather_new_york (city : list N) :
  lower city = lit "new york" ->
  get_weather city !! lit "status" = Some (lit "success")
  /\ get_weather city !! lit "report" = Some new_york_report
  /\ get_weather city = get_weather (lit "New York")
  /\ get_weather city = get_weather (lit "new york").
Proof.
  intros E.
  rewrite (get_weather_hit city E).
  rewrite (get_weather_hit _ lower_New_York), (get_weather_hit _ lower_new_york).
  repeat split; reflexivity.
Qed.

(** C2: every city whose lowered form is not "new york" gets the status
    "error" and a message that names the city, never the status
    "success"; and an error status comes from no other input. *)
Theorem get_weather_elsewhere (city : list N) :
  lower city <> lit "new york" ->
  get_weather city !! lit "status" = Some (lit "error")
  /\ (exists before after,
        get_weather city !! lit "error_message" = Some (before ++ city ++ after))
  /\ get_weather city !! lit "status" <> Some (lit "success")
  /\ (forall other,
        get_weather other !! lit "status" = Some (lit "error") ->
        lower other <> lit "new york").
Proof.
  intros E. rewrite (get_weather_miss city E).
  split; [reflexivity|].
  split; [do 2 eexists; reflexivity|].
  split; [discriminate|].
  intros other Herr Hhit.
  rewrite (get_weather_hit other Hhit) in Herr. discriminate.
Qed.

(** C8: the returned dict always has a "status" of "success" or "error";
    with "success" it has a "report" and no "error_message", with
    "error" an "error_message" and no "report". *)
Theorem get_weather_shape (city : list N) :
  let d := get_weather city in
  (d !! lit "status" = Some (lit "success")
   /\ is_Some (d !! lit "report") /\ d !! lit "error_message" = None)
  \/ (d !! lit "status" = Some (lit "error")
      /\ is_Some (d !! lit "error_message") /\ d !! lit "report" = None).
Proof.
  cbv zeta. destruct (decide (lower city = lit "new york")) as [E|E].
  - left. rewrite (get_weather_hit city E).
    split; [reflexivity|]. split; [eexists|]; reflexivity.
  - right. rewrite (get_weather_miss city E).
    split; [reflexivity|]. split; [eexists|]; reflexivity.
Qed.

(** C10: for a city that does not match, the message is exactly
    "Weather for '" ++ city ++ "' not available.", with the city as it
    was given: where lowering changes the city, the message is not the
    one built from the lowered form. *)
Theorem get_weather_message_verbatim (city : list N) :
  lower city <> lit "new york" ->
  get_weather city !! lit "error_message"
    = Some (lit "Weather for '" ++ city ++ lit "' not available.")
  /\ (lower city <> city ->
      get_weather city !! lit "error_message"
        <> Some (lit "Weather for '" ++ lower city ++ lit "' not available.")).
Proof.
  intros E. rewrite (get_weather_miss city E).
  split; [reflexivity|].
  intros Hchanged Heq. apply Hchanged.
  rewrite lookup_insert_eq in Heq.
  apply (inj Some) in Heq.
  apply app_inv_head in Heq. apply app_inv_tail in Heq. congruence.
Qed.

End WeatherFacts.

(** ** White space and lowering *)

Lemma lstrip_cases (s : list N) :
  lstrip s = s \/ exists c s', s = c :: s' /\ isspace c = true.
Proof.
  destruct s as [|c s']; [left; reflexivity|].
  simpl. destruct (isspace c) eqn:E.
  - right. exists c, s'. auto.
  - left. reflexivity.
Qed.

(** [strip] changes exactly the strings with white space at an end. *)
Lemma strip_changes (s : list N) :
  strip s <> s ->
  (exists c s', s = c :: s' /\ isspace c = true)
  \/ (exists s' c, s = s' ++ [c] /\ isspace c = true).
Proof.
  intros Hne.
  destruct (lstrip_cases s) as [E|Hhead]; [|left; exact Hhead].
  right. unfold strip, rstrip in Hne. rewrite E in Hne.
  destruct (lstrip_cases (rev s)) as [E'|(c & r & Er & Hc)].
  - rewrite E', rev_involutive in Hne. contradiction.
  - exists (rev r), c. split; [|exact Hc].
    rewrite <- (rev_involutive s), Er. reflexivity.
Qed.

Lemma isspace_not_capital (c : N) :
  isspace c = true -> (0x41 <=? c) && (c <=? 0x5A) = false.
Proof.
  intros Hc. destruct ((0x41 <=? c) && (c <=? 0x5A)) eqn:E; [|reflexivity].
  apply andb_true_iff in E as [Hlo Hhi].
  apply N.leb_le in Hlo. apply N.leb_le in Hhi.
  unfold isspace in Hc.
  repeat match type of Hc with
         | (_ || _)%bool = true => apply orb_true_iff in Hc as [Hc|Hc]
         end;
    repeat match type of Hc with
           | (_ && _)%bool = true =>
               let H1 := fresh in
               apply andb_true_iff in Hc as [H1 Hc]; apply N.leb_le in H1
           end;
    first [apply N.leb_le in Hc | apply N.eqb_eq in Hc]; lia.
Qed.

Lemma ascii_lower_space (c : N) : isspace c = true -> ascii_lower c = c.
Proof.
  intros Hc. unfold ascii_lower. rewrite (isspace_not_capital c Hc). reflexivity.
Qed.

Section LowerFacts.
Context {db : UnicodeDB}.

Lemma lower_ucs4_space (before : list N) (c : N) (after : list N) :
  keeps_whitespace db -> isspace c = true -> lower_ucs4 before c after = [c].
Proof.
  intros Hdb Hc. unfold lower_ucs4.
  destruct (c <? 128); [|apply Hdb; exact Hc].
  rewrite (ascii_lower_space c Hc). reflexivity.
Qed.

(** The last character is lowered last. *)
Lemma lower_from_snoc (s : list N) (c : N) :
  forall before, exists front,
    lower_from before (s ++ [c]) = front ++ lower_ucs4 (before ++ s) c [].
Proof.
  induction s as [|a s IH]; intros before.
  - exists []. simpl. rewrite !app_nil_r. reflexivity.
  - destruct (IH (before ++ [a])) as [front Hfront].
    exists (lower_ucs4 before a (s ++ [c]) ++ front).
    simpl. rewrite Hfront, <- !app_assoc. reflexivity.
Qed.

Lemma lower_outer_space (city : list N) :
  keeps_whitespace db -> strip city <> city -> lower city <> lit "new york".
Proof.
  intros Hdb Hne Hlow.
  destruct (strip_changes city Hne) as [(c & s' & -> & Hc)|(s' & c & -> & Hc)].
  - unfold lower in Hlow. simpl in Hlow.
    rewrite (lower_ucs4_space _ c _ Hdb Hc) in Hlow.
    injection Hlow as Hhead _. subst c. discriminate.
  - unfold lower in Hlow.
    destruct (lower_from_snoc s' c []) as [front Hfront].
    rewrite Hfront, (lower_ucs4_space _ c _ Hdb Hc) in Hlow.
    change (lit "new york") with (lit "new yor" ++ [0x6B]) in Hlow.
    apply app_inj_tail in Hlow as [_ Hlast]. subst c. discriminate.
Qed.

(** C9: only letter case is normalised, never white space: a city with
    white space at either end gets the error status, as " new york "
    does, although its stripped form would match; the console's exit
    check, in contrast, strips its input. *)
Theorem get_weather_keeps_whitespace (city : list N) :
  keeps_whitespace db ->
  strip city <> city ->
  get_weather city !! lit "status" = Some (lit "error")
  /\ (lower (strip (lit " new york ")) = lit "new york"
      /\ get_weather (lit " new york ") !! lit "status" = Some (lit "error")
      /\ get_weather (lit "new york ") !! lit "status" = Some (lit "error"))
  /\ exit_requested (lit " exit ") = true.
Proof.
  intros Hdb Hne.
  assert (Herr : forall c, strip c <> c ->
                   get_weather c !! lit "status" = Some (lit "error")).
  { intros c Hc.
    rewrite (get_weather_miss c (lower_outer_space c Hdb Hc)). reflexivity. }
  split; [apply Herr; exact Hne|].
  split; [|reflexivity].
  split; [reflexivity|].
  split; apply Herr; discriminate.
Qed.

End LowerFacts.

(** ** The two greeting tools *)

Section GreetingFacts.
Context {W : Type} {console : Console W}.

(** C3, as the code has it: [say_hello] prints its log line and then
    returns "Hello, " ++ name ++ "!".  When the print succeeds that is
    the result, for every name; when the print raises, the call raises
    the same exception and returns nothing; it never returns anything
    else.  Called with no argument it behaves as for the name "there",
    so it returns "Hello, there!". *)
Theorem say_hello_returns (name : list N) (w : W) :
  (forall w',
      stdout_write (lit "--- Tool: say_hello called with name: " ++ name ++ lit " ---") w
        = (w', None) ->
      say_hello (Some name) w =
        ([Stdout (lit "--- Tool: say_hello called with name: " ++ name ++ lit " ---")],
         w', Ok (lit "Hello, " ++ name ++ lit "!")))
  /\ (forall w' e,
        stdout_write (lit "--- Tool: say_hello called with name: " ++ name ++ lit " ---") w
          = (w', Some e) ->
        outcome (say_hello (Some name) w) = Raise e)
  /\ (forall greeting,
        outcome (say_hello (Some name) w) = Ok greeting ->
        greeting = lit "Hello, " ++ name ++ lit "!")
  /\ say_hello None w = say_hello (Some (lit "there")) w
  /\ (forall greeting,
        outcome (say_hello None w) = Ok greeting -> greeting = lit "Hello, there!").
Proof.
  assert (Hany : forall n greeting,
             outcome (say_hello (Some n) w) = Ok greeting ->
             greeting = lit "Hello, " ++ n ++ lit "!").
  { intros n greeting. unfold say_hello, bind, print, ret, default, from_option, Datatypes.id, outcome.
    cbv beta iota zeta.
    destruct (stdout_write _ w) as [w1 [e|]]; simpl; [discriminate|].
    intros Hok. injection Hok as <-. reflexivity. }
  split; [|split; [|split; [|split]]].
  - intros w' Hprint. unfold say_hello, bind, print, ret, default, from_option, Datatypes.id.
    cbv beta iota zeta. rewrite Hprint. reflexivity.
  - intros w' e Hprint. unfold say_hello, bind, print, ret, default, from_option, Datatypes.id, outcome.
    cbv beta iota zeta. rewrite Hprint. reflexivity.
  - apply Hany.
  - reflexivity.
  - intros greeting Hok. apply (Hany (lit "there") greeting Hok).
Qed.

(** C4, as the code has it: [say_goodbye] prints its log line and then
    returns the fixed string.  From any state in which the print
    succeeds that is the result; when the print raises, the call raises
    the same exception; it never returns anything else. *)
Theorem say_goodbye_fixed (w : W) :
  (forall w',
      stdout_write (lit "--- Tool: say_goodbye called ---") w = (w', None) ->
      say_goodbye w =
        ([Stdout (lit "--- Tool: say_goodbye called ---")], w',
         Ok (lit "Goodbye! Have a great day.")))
  /\ (forall w' e,
        stdout_write (lit "--- Tool: say_goodbye called ---") w = (w', Some e) ->
        outcome (say_goodbye w) = Raise e)
  /\ (forall farewell,
        outcome (say_goodbye w) = Ok farewell ->
        farewell = lit "Goodbye! Have a great day.").
Proof.
  split; [|split].
  - intros w' Hprint. unfold say_goodbye, bind, print, ret. rewrite Hprint. reflexivity.
  - intros w' e Hprint. unfold say_goodbye, bind, print, ret, outcome.
    rewrite Hprint. reflexivity.
  - intros farewell. unfold say_goodbye, bind, print, ret, outcome.
    destruct (stdout_write _ w) as [w1 [e|]]; simpl; [discriminate|].
    intros Hok. injection Hok as <-. reflexivity.
Qed.

End GreetingFacts.

(** ** Start-up: the flight-search agent *)

Section StartupFacts.
Context {adk : ADK}.

(** The agent is built exactly when the connection to the tool
    subprocess is, and then from the environment alone. *)
Lemma create_flight_search_agent_runs (environ : gmap (list N) (list N)) (w : World) :
  create_flight_search_agent environ w =
    match from_server
            {| command := lit "mcp-flight-search";
               args := [lit "--connection_type"; lit "stdio"];
               env := {[ lit "SERP_API_KEY" := environ !! lit "SERP_API_KEY" ]} |} w with
    | (w', Ok (found, exit_stack)) =>
        ([], w',
         Ok ({| model := getenv_or environ (lit "GEMINI_MODEL") (lit "gemini-2.5-pro-exp-03-25");
                name := lit "flight_search_agent";
                instruction :=
                  lit "Help the user search for flights using the available tools. "
                  ++ lit "If no return date is specified, treat it as a one-way trip.";
                tools := found |}, exit_stack))
    | (w', Raise e) => ([], w', Raise e)
    end.
Proof.
  unfold create_flight_search_agent, bind, connect, getenv.
  destruct (from_server _ w) as [w' [[found exit_stack]|e]]; reflexivity.
Qed.

(** C6: the model of the flight-search agent is the value of
    GEMINI_MODEL when the environment sets it and
    "gemini-2.5-pro-exp-03-25" when it does not; nothing else overrides
    it: two start-ups whose environments agree on GEMINI_MODEL build
    agents with the same model. *)
Theorem flight_agent_model (environ : gmap (list N) (list N)) (w : World) :
  (forall t w' agent exit_stack,
      create_flight_search_agent environ w = (t, w', Ok (agent, exit_stack)) ->
      model agent =
        match environ !! lit "GEMINI_MODEL" with
        | Some v => v
        | None => lit "gemini-2.5-pro-exp-03-25"
        end)
  /\ (forall environ2 w2 t w' agent exit_stack t2 w2' agent2 exit_stack2,
        create_flight_search_agent environ w = (t, w', Ok (agent, exit_stack)) ->
        create_flight_search_agent environ2 w2 = (t2, w2', Ok (agent2, exit_stack2)) ->
        environ2 !! lit "GEMINI_MODEL" = environ !! lit "GEMINI_MODEL" ->
        model agent2 = model agent)
  /\ (forall w' found exit_stack,
        from_server
          {| command := lit "mcp-flight-search";
             args := [lit "--connection_type"; lit "stdio"];
             env := {[ lit "SERP_API_KEY" := environ !! lit "SERP_API_KEY" ]} |} w
          = (w', Ok (found, exit_stack)) ->
        exists agent,
          create_flight_search_agent environ w = ([], w', Ok (agent, exit_stack))).
Proof.
  assert (Hmodel : forall env1 w1 t w' agent exit_stack,
             create_flight_search_agent env1 w1 = (t, w', Ok (agent, exit_stack)) ->
             model agent = getenv_or env1 (lit "GEMINI_MODEL") (lit "gemini-2.5-pro-exp-03-25")).
  { intros env1 w1 t w' agent exit_stack Hrun.
    rewrite create_flight_search_agent_runs in Hrun.
    destruct (from_server _ w1) as [w1' [[found st]|e]]; [|discriminate].
    injection Hrun as _ _ <- _. reflexivity. }
  split; [|split].
  - intros t w' agent exit_stack Hrun. exact (Hmodel _ _ _ _ _ _ Hrun).
  - intros environ2 w2 t w' agent exit_stack t2 w2' agent2 exit_stack2 Hrun Hrun2 Hsame.
    rewrite (Hmodel _ _ _ _ _ _ Hrun), (Hmodel _ _ _ _ _ _ Hrun2).
    unfold getenv_or. rewrite Hsame. reflexivity.
  - intros w' found exit_stack Hconn.
    rewrite create_flight_search_agent_runs, Hconn. eexists. reflexivity.
Qed.

End StartupFacts.

(** ** The console loop *)

Section MainFacts.
Context {db : UnicodeDB} {adk : ADK}.


(** One turn of the loop on a line. *)
Lemma main_loop_line (user_input : list N) (rest : list input_result) (w : World) :
  main_loop (Line user_input :: rest) w =
    if exit_requested user_input
    then ([ReadLine (lit "User: ")], w, Ok tt)
    else
      (emit (ReadLine (lit "User: ")) ;;
       run_and_print {| role := lit "user"; parts := [ {| text := user_input |} ] |} ;;
       main_loop rest) w.
Proof.
  simpl. unfold bind, input, emit, ret. simpl.
  destruct (exit_requested user_input); [reflexivity|].
  unfold bind. simpl.
  destruct (run_and_print _ w) as [[t w'] [[]|e]]; simpl; [|reflexivity].
  destruct (main_loop rest w') as [[t' w''] r]. reflexivity.
Qed.

(** One turn on a line that is no exit line, by how the call of the
    runner and the printing of its events end. *)
Lemma main_loop_forward (user_input : list N) (rest : list input_result) (w : World) :
  exit_requested user_input = false ->
  main_loop (Line user_input :: rest) w =
    let '(t, w', r) :=
      run_and_print {| role := lit "user"; parts := [ {| text := user_input |} ] |} w in
    match r with
    | Raise e => (ReadLine (lit "User: ") :: t, w', Raise e)
    | Ok _ =>
        let '(t', w'', r') := main_loop rest w' in
        (ReadLine (lit "User: ") :: t ++ t', w'', r')
    end.
Proof.
  intros Hexit. rewrite main_loop_line, Hexit.
  unfold bind, emit.
  destruct (run_and_print _ w) as [[t w'] [[]|e]]; [|reflexivity].
  destruct (main_loop rest w') as [[t' w''] r']. reflexivity.
Qed.

(** Printing the events of a generator leaves only printed lines in the
    trace. *)
Lemma print_events_prints (events : gen World Event) :
  forall w, forallb is_stdout (trace (print_events events w)) = true.
Proof.
  induction events as [|e|evt resume_world resume IH]; intros w;
    [reflexivity|reflexivity|].
  simpl. unfold bind, print.
  destruct (stdout_write (event_str evt) w) as [w1 [e|]]; [reflexivity|].
  specialize (IH w1 (resume_world w1)).
  destruct (print_events (resume w1) (resume_world w1)) as [[t w2] r].
  exact IH.
Qed.

(** A turn calls the runner once, with the message, and then only prints. *)
Lemma run_and_print_trace (content : Content) (w : World) :
  exists t,
    trace (run_and_print content w)
      = RunnerRun (id session) (user_id session) content :: t
    /\ forallb is_stdout t = true.
Proof.
  unfold run_and_print.
  destruct (runner_run _ _ content w) as [w' events].
  pose proof (print_events_prints events w') as Hprints.
  destruct (print_events events w') as [[t w''] r].
  exists t. split; [reflexivity|exact Hprints].
Qed.

Lemma prints_no_teardown (t : list io_event) :
  forallb is_stdout t = true -> teardowns t = 0%nat.
Proof.
  unfold teardowns. induction t as [|ev t IH]; [reflexivity|].
  simpl. intros Hall. apply andb_true_iff in Hall as [Hev Hrest].
  destruct ev; try discriminate. simpl. exact (IH Hrest).
Qed.


(** The loop itself never runs the teardown. *)
Lemma main_loop_no_teardown (stdin : list input_result) :
  forall w, teardowns (trace (main_loop stdin w)) = 0%nat.
Proof.
  induction stdin as [|r rest IH]; intros w; [reflexivity|].
  destruct r as [user_input|e]; [|reflexivity].
  destruct (exit_requested user_input) eqn:Hexit.
  - rewrite main_loop_line, Hexit. reflexivity.
  - rewrite (main_loop_forward user_input rest w Hexit).
    destruct (run_and_print_trace
                {| role := lit "user"; parts := [ {| text := user_input |} ] |} w)
      as (t & Ht & Hprints).
    destruct (run_and_print _ w) as [[t0 w'] [[]|e]];
      unfold trace in Ht; simpl in Ht; subst t0.
    + specialize (IH w').
      destruct (main_loop rest w') as [[t' w''] r'].
      unfold teardowns, trace in *. simpl in *.
      rewrite List.filter_app, length_app.
      fold (teardowns t). rewrite (prints_no_teardown t Hprints). exact IH.
    + unfold teardowns, trace. simpl.
      fold (teardowns t). exact (prints_no_teardown t Hprints).
Qed.

(** The program as a whole: banner, loop, then the [finally] block,
    statement by statement. *)
Lemma main_runs (flight_exit_stack : ExitStack) (stdin : list input_result) (w : World) :
  main flight_exit_stack stdin w =
    let banner := Stdout (lit "Multi-Agent Flight Search App Type 'exit' to quit.") in
    let shutting := Stdout (lit "Shutting down MCP connection...") in
    let complete := Stdout (lit "Shutdown complete.") in
    match stdout_write (lit "Multi-Agent Flight Search App Type 'exit' to quit.") w with
    | (w0, Some e) => ([banner], w0, Raise e)
    | (w0, None) =>
        let '(t_loop, w_loop, left_by) := main_loop stdin w0 in
        match stdout_write (lit "Shutting down MCP connection...") w_loop with
        | (w1, Some e) => (banner :: t_loop ++ [shutting], w1, Raise e)
        | (w1, None) =>
            match aclose flight_exit_stack w1 with
            | (w2, Some e) => (banner :: t_loop ++ [shutting; Aclose], w2, Raise e)
            | (w2, None) =>
                match stdout_write (lit "Shutdown complete.") w2 with
                | (w3, Some e) =>
                    (banner :: t_loop ++ [shutting; Aclose; complete], w3, Raise e)
                | (w3, None) =>
                    (banner :: t_loop ++ [shutting; Aclose; complete], w3, left_by)
                end
            end
        end
    end.
Proof.
  cbv zeta. unfold main, try_finally, bind at 1, print at 1.
  destruct (stdout_write _ w) as [w0 [e|]]; [reflexivity|].
  destruct (main_loop stdin w0) as [[t_loop w_loop] left_by].
  unfold bind, print, teardown.
  destruct (stdout_write _ w_loop) as [w1 [e|]]; [reflexivity|].
  destruct (aclose flight_exit_stack w1) as [w2 [e|]]; [reflexivity|].
  destruct (stdout_write _ w2) as [w3 [e|]]; reflexivity.
Qed.

(** C7 does not hold of the code.  The [finally] block prints before it
    closes the exit stack: when that print raises, however the loop was
    left, [aclose] is never called: the program ends with the print's
    exception, in the world the print left, and its trace holds no
    teardown. *)
Theorem teardown_skipped_when_print_fails
  (flight_exit_stack : ExitStack) (stdin : list input_result)
  (w w0 w_loop w1 : World) (t_loop : list io_event) (left_by : result unit) (e : exn) :
  stdout_write (lit "Multi-Agent Flight Search App Type 'exit' to quit.") w = (w0, None) ->
  main_loop stdin w0 = (t_loop, w_loop, left_by) ->
  stdout_write (lit "Shutting down MCP connection...") w_loop = (w1, Some e) ->
  main flight_exit_stack stdin w =
    (Stdout (lit "Multi-Agent Flight Search App Type 'exit' to quit.")
       :: t_loop ++ [Stdout (lit "Shutting down MCP connection...")],
     w1, Raise e)
  /\ teardowns (trace (main flight_exit_stack stdin w)) = 0%nat.
Proof.
  intros Hbanner Hloop Hprint.
  pose proof (main_loop_no_teardown stdin w0) as Hnone.
  rewrite main_runs. cbv zeta. rewrite Hbanner, Hloop, Hprint.
  split; [reflexivity|].
  rewrite Hloop in Hnone. unfold trace in *. simpl in *.
  unfold teardowns in *. simpl.
  rewrite List.filter_app, length_app, Hnone. reflexivity.
Qed.

End MainFacts.

(** * Further properties *)

(** ** Start-up and the environment *)

Section StartupMore.
Context {adk : ADK}.

(** X2: when the connection to the tool subprocess fails, start-up
    raises that very exception and builds no agent, whatever the
    environment says about the model. *)
Theorem startup_connection_failure
  (environ : gmap (list N) (list N)) (w w' : World) (e : exn) :
  from_server
    {| command := lit "mcp-flight-search";
       args := [lit "--connection_type"; lit "stdio"];
       env := {[ lit "SERP_API_KEY" := environ !! lit "SERP_API_KEY" ]} |} w
    = (w', Raise e) ->
  create_flight_search_agent environ w = ([], w', Raise e)
  /\ forall model_value,
       create_flight_search_agent (<[lit "GEMINI_MODEL" := model_value]> environ) w
         = ([], w', Raise e).
Proof.
  intros Hfail. split.
  - rewrite create_flight_search_agent_runs, Hfail. reflexivity.
  - intros model_value.
    rewrite create_flight_search_agent_runs.
    rewrite lookup_insert_ne by discriminate.
    rewrite Hfail. reflexivity.
Qed.

(** X3: the default model is used only when GEMINI_MODEL is absent (or
    spells the default itself); a variable set to the empty string is
    taken as the model. *)
Theorem default_model_only_when_unset
  (environ : gmap (list N) (list N)) (w w' : World) (t : list io_event)
  (flight : LlmAgent) (exit_stack : ExitStack) :
  create_flight_search_agent environ w = (t, w', Ok (flight, exit_stack)) ->
  (model flight = lit "gemini-2.5-pro-exp-03-25" <->
   environ !! lit "GEMINI_MODEL" = None
   \/ environ !! lit "GEMINI_MODEL" = Some (lit "gemini-2.5-pro-exp-03-25"))
  /\ (environ !! lit "GEMINI_MODEL" = Some [] -> model flight = []).
Proof.
  intros Hrun.
  rewrite create_flight_search_agent_runs in Hrun.
  destruct (from_server _ w) as [w1 [[found st]|e]]; [|discriminate].
  injection Hrun as _ _ <- _. simpl. unfold getenv_or.
  destruct (environ !! lit "GEMINI_MODEL") as [v|].
  - split.
    + split.
      * intros ->. right. reflexivity.
      * intros [Hnone|Hsome]; [discriminate|]. injection Hsome as ->. reflexivity.
    + intros Hempty. injection Hempty as ->. reflexivity.
  - split; [|discriminate].
    split; [intros _; left; reflexivity|reflexivity].
Qed.

End StartupMore.

(** ** More on the weather lookup *)

Section WeatherMore.
Context {db : UnicodeDB}.

(** X4: the returned dict has exactly two keys: "status" with "report",
    or "status" with "error_message", and nothing else. *)
Theorem get_weather_keys (city : list N) :
  dom (get_weather city) = ({[ lit "status"; lit "report" ]} : gset (list N))
  \/ dom (get_weather city) = ({[ lit "status"; lit "error_message" ]} : gset (list N)).
Proof.
  destruct (decide (lower city = lit "new york")) as [E|E].
  - left. rewrite (get_weather_hit city E).
    rewrite !dom_insert_L, dom_empty_L. set_solver.
  - right. rewrite (get_weather_miss city E).
    rewrite !dom_insert_L, dom_empty_L. set_solver.
Qed.

(** X5: the error message tells the city apart: two cities that do not
    match and differ anywhere, in case or spacing too, get different
    messages and different dicts. *)
Theorem get_weather_message_injective (city1 city2 : list N) :
  lower city1 <> lit "new york" ->
  lower city2 <> lit "new york" ->
  city1 <> city2 ->
  get_weather city1 !! lit "error_message" <> get_weather city2 !! lit "error_message"
  /\ get_weather city1 <> get_weather city2.
Proof.
  intros E1 E2 Hne.
  assert (Hmsg : get_weather city1 !! lit "error_message"
                 <> get_weather city2 !! lit "error_message").
  { rewrite (get_weather_miss city1 E1), (get_weather_miss city2 E2).
    rewrite !lookup_insert_eq. intros Heq. apply Hne.
    apply (inj Some) in Heq.
    apply app_inv_head in Heq. apply app_inv_tail in Heq. exact Heq. }
  split; [exact Hmsg|].
  intros Heq. apply Hmsg. rewrite Heq. reflexivity.
Qed.

End WeatherMore.

(** ** Text without non-ASCII characters, and padding *)

Lemma lower_from_ascii {db : UnicodeDB} (s : list N) :
  Forall (fun c => c < 128) s ->
  forall before, lower_from before s = map ascii_lower s.
Proof.
  induction 1 as [|c s Hc _ IH]; intros before; [reflexivity|].
  simpl. unfold lower_ucs4.
  apply N.ltb_lt in Hc. rewrite Hc, IH. reflexivity.
Qed.

Lemma lstrip_keeps (P : N -> Prop) (s : list N) :
  Forall P s -> Forall P (lstrip s).
Proof.
  induction 1 as [|c s Hc Hs IH]; simpl; [constructor|].
  destruct (isspace c); [exact IH|constructor; assumption].
Qed.

Lemma strip_keeps (P : N -> Prop) (s : list N) :
  Forall P s -> Forall P (strip s).
Proof.
  intros Hs. unfold strip, rstrip.
  apply List.Forall_rev, lstrip_keeps, List.Forall_rev, lstrip_keeps, Hs.
Qed.

Lemma lstrip_padding (pad s : list N) :
  Forall (fun c => isspace c = true) pad -> lstrip (pad ++ s) = lstrip s.
Proof.
  induction 1 as [|c pad Hc _ IH]; [reflexivity|].
  simpl. rewrite Hc. exact IH.
Qed.

Lemma lstrip_app (s p : list N) :
  lstrip (s ++ p) =
    match lstrip s with
    | [] => lstrip p
    | _ :: _ => lstrip s ++ p
    end.
Proof.
  induction s as [|c s IH]; simpl; [reflexivity|].
  destruct (isspace c); [exact IH|reflexivity].
Qed.

Lemma rstrip_padding (s pad : list N) :
  Forall (fun c => isspace c = true) pad -> rstrip (s ++ pad) = rstrip s.
Proof.
  intros Hpad. unfold rstrip. rewrite rev_app_distr.
  rewrite lstrip_padding by (apply List.Forall_rev; exact Hpad).
  reflexivity.
Qed.

Lemma strip_padding (pad1 s pad2 : list N) :
  Forall (fun c => isspace c = true) pad1 ->
  Forall (fun c => isspace c = true) pad2 ->
  strip (pad1 ++ s ++ pad2) = strip s.
Proof.
  intros H1 H2. unfold strip.
  rewrite (lstrip_padding pad1 _ H1), lstrip_app.
  destruct (lstrip s) as [|c rest] eqn:E.
  - rewrite <- (app_nil_r pad2), (lstrip_padding pad2 [] H2). reflexivity.
  - apply rstrip_padding. exact H2.
Qed.

(** X6: for a city of ASCII characters the lookup succeeds exactly when
    the city spells "new york" up to the case of its letters, and the
    whole result is the same under every Unicode database. *)
Theorem get_weather_ascii (db1 db2 : UnicodeDB) (city : list N) :
  Forall (fun c => c < 128) city ->
  (@get_weather db1 city !! lit "status" = Some (lit "success") <->
   map ascii_lower city = lit "new york")
  /\ @get_weather db1 city = @get_weather db2 city.
Proof.
  intros Hascii.
  assert (Hlow : forall db, @lower db city = map ascii_lower city).
  { intros db. unfold lower. apply lower_from_ascii. exact Hascii. }
  split.
  - unfold get_weather. rewrite Hlow.
    destruct (decide (map ascii_lower city = lit "new york")) as [E|E].
    + split; [intros _; exact E|intros _; reflexivity].
    + split; [discriminate|contradiction].
  - unfold get_weather. rewrite !Hlow. reflexivity.
Qed.

(** X7: white space around a line never changes the exit check: the
    line is stripped before it is compared. *)
Theorem exit_check_ignores_padding {db : UnicodeDB} (pad1 user_input pad2 : list N) :
  Forall (fun c => isspace c = true) pad1 ->
  Forall (fun c => isspace c = true) pad2 ->
  strip (pad1 ++ user_input ++ pad2) = strip user_input
  /\ exit_requested (pad1 ++ user_input ++ pad2) = exit_requested user_input.
Proof.
  intros H1 H2.
  pose proof (strip_padding pad1 user_input pad2 H1 H2) as Hstrip.
  split; [exact Hstrip|].
  unfold exit_requested. rewrite Hstrip. reflexivity.
Qed.

(** X8: for a line of ASCII characters the exit check holds exactly when
    the stripped line spells "exit" or "quit" up to the case of its
    letters, under every Unicode database. *)
Theorem exit_check_ascii (db1 db2 : UnicodeDB) (user_input : list N) :
  Forall (fun c => c < 128) user_input ->
  (@exit_requested db1 user_input = true <->
   map ascii_lower (strip user_input) = lit "exit"
   \/ map ascii_lower (strip user_input) = lit "quit")
  /\ @exit_requested db1 user_input = @exit_requested db2 user_input.
Proof.
  intros Hascii.
  assert (Hlow : forall db, @lower db (strip user_input)
                            = map ascii_lower (strip user_input)).
  { intros db. unfold lower. apply lower_from_ascii, strip_keeps. exact Hascii. }
  split.
  - unfold exit_requested. rewrite bool_decide_eq_true, Hlow.
    rewrite !elem_of_cons, elem_of_nil. tauto.
  - unfold exit_requested. rewrite !Hlow. reflexivity.
Qed.

(** ** More on the console loop *)

Section LoopMore.
Context {db : UnicodeDB} {adk : ADK}.

Lemma prints_no_runner_calls (t : list io_event) :
  forallb is_stdout t = true -> runner_calls t = [].
Proof.
  unfold runner_calls. induction t as [|ev t IH]; [reflexivity|].
  simpl. intros Hall. apply andb_true_iff in Hall as [Hev Hrest].
  destruct ev; try discriminate. simpl. exact (IH Hrest).
Qed.

(** X9: what follows an exit line on standard input is never read: the
    loop behaves the same whatever comes after it. *)
Theorem input_after_exit_ignored
  (user_input : list N) (before rest rest' : list input_result) (w : World) :
  exit_requested user_input = true ->
  main_loop (before ++ Line user_input :: rest) w
    = main_loop (before ++ Line user_input :: rest') w.
Proof.
  intros Hexit. revert w.
  induction before as [|r before IH]; intros w.
  - simpl app. rewrite !main_loop_line, Hexit. reflexivity.
  - destruct r as [v|e]; [|reflexivity].
    change ((Line v :: before) ++ Line user_input :: rest)
      with (Line v :: (before ++ Line user_input :: rest)).
    change ((Line v :: before) ++ Line user_input :: rest')
      with (Line v :: (before ++ Line user_input :: rest')).
    destruct (exit_requested v) eqn:Ev.
    + rewrite !main_loop_line, Ev. reflexivity.
    + rewrite !(main_loop_forward v _ w Ev).
      destruct (run_and_print _ w) as [[t w'] [[]|e]]; [|reflexivity].
      rewrite (IH w'). reflexivity.
Qed.


(** X11: the runner is called only with lines typed before the first
    exit line, each once, in the order typed, as typed, in the one
    session: its calls are an initial part of those lines' messages. *)
Theorem runner_calls_in_order (stdin : list input_result) (w : World) :
  runner_calls (trace (main_loop stdin w))
    `prefix_of` map user_message (lines_before_exit stdin).
Proof.
  revert w. induction stdin as [|r rest IH]; intros w.
  - exists []. reflexivity.
  - destruct r as [v|e]; [|exists []; reflexivity].
    simpl lines_before_exit.
    destruct (exit_requested v) eqn:Ev.
    + rewrite main_loop_line, Ev. exists []. reflexivity.
    + rewrite (main_loop_forward v rest w Ev).
      destruct (run_and_print_trace
                  {| role := lit "user"; parts := [ {| text := v |} ] |} w)
        as (t & Ht & Hprints).
      destruct (run_and_print _ w) as [[t0 w'] [[]|e]];
        unfold trace in Ht; simpl in Ht; subst t0.
      * destruct (IH w') as [k Hk].
        destruct (main_loop rest w') as [[t' w''] r'].
        exists k. rewrite map_cons, Hk.
        unfold trace, runner_calls. simpl.
        rewrite List.filter_app.
        fold (runner_calls t). rewrite (prints_no_runner_calls t Hprints).
        reflexivity.
      * exists (map user_message (lines_before_exit rest)).
        unfold trace, runner_calls. simpl.
        fold (runner_calls t). rewrite (prints_no_runner_calls t Hprints).
        reflexivity.
Qed.


(** X13: once the line before the teardown is printed, [aclose] is
    called on the exit stack exactly once, in the world that print left.
    If it raises, its exception replaces whatever ended the loop and
    nothing more is printed.  If it succeeds, the last line is printed;
    the program then ends as the loop did when that print succeeds, and
    with the print's exception when it does not. *)
Theorem teardown_outcome
  (flight_exit_stack : ExitStack) (stdin : list input_result)
  (w w0 w_loop w1 w2 : World) (t_loop : list io_event) (left_by : result unit)
  (err : option exn) :
  stdout_write (lit "Multi-Agent Flight Search App Type 'exit' to quit.") w = (w0, None) ->
  main_loop stdin w0 = (t_loop, w_loop, left_by) ->
  stdout_write (lit "Shutting down MCP connection...") w_loop = (w1, None) ->
  aclose flight_exit_stack w1 = (w2, err) ->
  teardowns (trace (main flight_exit_stack stdin w)) = 1%nat
  /\ match err with
     | Some e =>
         main flight_exit_stack stdin w =
           (Stdout (lit "Multi-Agent Flight Search App Type 'exit' to quit.")
              :: t_loop ++ [Stdout (lit "Shutting down MCP connection..."); Aclose],
            w2, Raise e)
     | None =>
         forall w3 err3,
           stdout_write (lit "Shutdown complete.") w2 = (w3, err3) ->
           main flight_exit_stack stdin w =
             (Stdout (lit "Multi-Agent Flight Search App Type 'exit' to quit.")
                :: t_loop ++ [Stdout (lit "Shutting down MCP connection..."); Aclose;
                              Stdout (lit "Shutdown complete.")],
              w3,
              match err3 with
              | None => left_by
              | Some e => Raise e
              end)
     end.
Proof.
  intros Hbanner Hloop Hprint Hclose.
  pose proof (main_loop_no_teardown stdin w0) as Hnone.
  rewrite Hloop in Hnone. unfold trace in Hnone. simpl in Hnone.
  assert (Hcount : forall after,
             teardowns after = 0%nat ->
             teardowns (Stdout (lit "Multi-Agent Flight Search App Type 'exit' to quit.")
                          :: t_loop
                          ++ Stdout (lit "Shutting down MCP connection...")
                          :: Aclose :: after) = 1%nat).
  { intros after Hafter. unfold teardowns in *. simpl.
    rewrite List.filter_app, length_app. simpl. rewrite Hnone, Hafter. reflexivity. }
  rewrite main_runs. cbv zeta. rewrite Hbanner, Hloop, Hprint, Hclose.
  destruct err as [e|].
  - split; [apply (Hcount []); reflexivity|reflexivity].
  - split.
    + destruct (stdout_write (lit "Shutdown complete.") w2) as [w3 [e3|]];
        apply (Hcount [Stdout (lit "Shutdown complete.")]); reflexivity.
    + intros w3 err3 Hlast. rewrite Hlast. destruct err3; reflexivity.
Qed.

End LoopMore.

(** ** The agent tree *)

Lemma starts_with_sound (p s : list N) :
  starts_with p s = true -> exists after, s = p ++ after.
Proof.
  revert s. induction p as [|a p IH]; intros s Hs.
  - exists s. reflexivity.
  - destruct s as [|b s]; [discriminate|].
    simpl in Hs. apply andb_true_iff in Hs as [Hab Hrest].
    apply N.eqb_eq in Hab. subst b.
    destruct (IH s Hrest) as [after ->]. exists after. reflexivity.
Qed.

Lemma find_in_sound (p s : list N) : find_in p s = true -> occurs_in p s.
Proof.
  induction s as [|b s IH]; intros Hs.
  - simpl in Hs. rewrite orb_false_r in Hs.
    destruct (starts_with_sound p [] Hs) as [after Hafter].
    exists [], after. exact Hafter.
  - simpl in Hs. apply orb_true_iff in Hs as [Hhere|Hlater].
    + destruct (starts_with_sound p (b :: s) Hhere) as [after Hafter].
      exists [], after. exact Hafter.
    + destruct (IH Hlater) as (before & after & ->).
      exists (b :: before), after. reflexivity.
Qed.

Section AgentsMore.
Context {adk : ADK}.

Lemma flight_agent_name (environ : gmap (list N) (list N)) (w w' : World)
  (t : list io_event) (flight : LlmAgent) (exit_stack : ExitStack) :
  create_flight_search_agent environ w = (t, w', Ok (flight, exit_stack)) ->
  name flight = lit "flight_search_agent".
Proof.
  intros Hrun. rewrite create_flight_search_agent_runs in Hrun.
  destruct (from_server _ w) as [w1 [[found st]|e]]; [|discriminate].
  injection Hrun as _ _ <- _. reflexivity.
Qed.

(** X14: whatever the environment and the tool subprocess give, the
    root agent and its three sub-agents have four different names. *)
Theorem agent_names_distinct (environ : gmap (list N) (list N)) (w w' : World)
  (t : list io_event) (flight : LlmAgent) (exit_stack : ExitStack) :
  create_flight_search_agent environ w = (t, w', Ok (flight, exit_stack)) ->
  NoDup (map agent_name (root_agent flight :: sub_agents (root_agent flight))).
Proof.
  intros Hrun. simpl. rewrite (flight_agent_name _ _ _ _ _ _ Hrun).
  apply (bool_decide_unpack _). vm_compute. exact I.
Qed.

(** X15: the instructions name what they delegate to: the root
    instruction contains the name of each of its sub-agents, and the
    instruction of the root, greeting and farewell agents contains the
    name of each function the agent has as a tool. *)
Theorem instructions_name_their_targets (environ : gmap (list N) (list N))
  (w w' : World) (t : list io_event) (flight : LlmAgent) (exit_stack : ExitStack) :
  create_flight_search_agent environ w = (t, w', Ok (flight, exit_stack)) ->
  Forall (fun a => occurs_in (agent_name a) (agent_instruction (root_agent flight)))
    (sub_agents (root_agent flight))
  /\ Forall (fun a => forall fn,
                 In (FunctionTool fn) (agent_tools a) ->
                 occurs_in fn (agent_instruction a))
       [root_agent flight; greeting_agent; farewell_agent].
Proof.
  intros Hrun. split.
  - simpl. repeat constructor.
    + apply find_in_sound. vm_compute. reflexivity.
    + apply find_in_sound. vm_compute. reflexivity.
    + change (agent_name (as_agent flight)) with (name flight).
      rewrite (flight_agent_name _ _ _ _ _ _ Hrun).
      apply find_in_sound. vm_compute. reflexivity.
  - repeat constructor; intros fn [Heq|[]]; injection Heq as <-;
      apply find_in_sound; vm_compute; reflexivity.
Qed.

End AgentsMore.

(** * The properties at work

    The script run on [excerpt_db] and [echo_adk]. *)

#[local] Existing Instance excerpt_db.
#[local] Existing Instance echo_adk.

Lemma excerpt_keeps_whitespace : keeps_whitespace excerpt_db.
Proof.
  intros before c after Hc. simpl. unfold excerpt_tolower.
  destruct (c =? 0x212A) eqn:E1; [apply N.eqb_eq in E1; subst c; discriminate|].
  destruct (c =? 0x130) eqn:E2; [apply N.eqb_eq in E2; subst c; discriminate|].
  destruct (c =? 0x3A3) eqn:E3; [apply N.eqb_eq in E3; subst c; discriminate|].
  reflexivity.
Qed.

(** "New Yor" followed by the Kelvin sign lowers to "new york" as well. *)
Example get_weather_kelvin :
  get_weather (lit "New Yor" ++ [0x212A]) !! lit "status" = Some (lit "success").
Proof. reflexivity. Qed.

Lemma get_weather_new_york_witness :
  lower (lit "NEW york") = lit "new york"
  /\ get_weather (lit "NEW york") !! lit "status" = Some (lit "success")
  /\ get_weather (lit "NEW york") !! lit "report" = Some new_york_report
  /\ get_weather (lit "NEW york") = get_weather (lit "New York")
  /\ get_weather (lit "NEW york") = get_weather (lit "new york").
Proof.
  split; [reflexivity|].
  apply (get_weather_new_york (lit "NEW york")). reflexivity.
Defined.

Lemma get_weather_elsewhere_witness :
  lower (lit "Boston") <> lit "new york"
  /\ get_weather (lit "Boston") !! lit "status" = Some (lit "error")
  /\ (exists before after,
        get_weather (lit "Boston") !! lit "error_message"
          = Some (before ++ lit "Boston" ++ after))
  /\ get_weather (lit "Boston") !! lit "status" <> Some (lit "success")
  /\ (forall other,
        get_weather other !! lit "status" = Some (lit "error") ->
        lower other <> lit "new york").
Proof.
  split; [discriminate|].
  apply (get_weather_elsewhere (lit "Boston")). discriminate.
Defined.

Lemma get_weather_message_verbatim_witness :
  lower (lit " BoSton") <> lit "new york"
  /\ get_weather (lit " BoSton") !! lit "error_message"
       = Some (lit "Weather for ' BoSton' not available.")
  /\ (lower (lit " BoSton") <> lit " BoSton" ->
      get_weather (lit " BoSton") !! lit "error_message"
        <> Some (lit "Weather for '" ++ lower (lit " BoSton") ++ lit "' not available.")).
Proof.
  split; [discriminate|].
  apply (get_weather_message_verbatim (lit " BoSton")). discriminate.
Defined.

Lemma get_weather_keeps_whitespace_witness :
  keeps_whitespace excerpt_db
  /\ strip (lit "New York ") <> lit "New York "
  /\ lower (strip (lit "New York ")) = lit "new york"
  /\ get_weather (lit "New York ") !! lit "status" = Some (lit "error").
Proof.
  split; [exact excerpt_keeps_whitespace|].
  split; [discriminate|].
  split; [reflexivity|].
  apply (get_weather_keeps_whitespace (lit "New York ")).
  - exact excerpt_keeps_whitespace.
  - discriminate.
Defined.

Example say_hello_prints :
  @say_hello stdout_state utf8_console (Some (lit "Ada")) (Open (Some 3%nat)) =
    ([Stdout (lit "--- Tool: say_hello called with name: Ada ---")], Open (Some 2%nat),
     Ok (lit "Hello, Ada!")).
Proof. reflexivity. Qed.

(** A name with a lone surrogate cannot be printed on a UTF-8 stream:
    the call raises and returns nothing. *)
Lemma say_hello_lone_surrogate :
  @say_hello stdout_state utf8_console (Some [0xD800]) (Open None)
  = ([Stdout (lit "--- Tool: say_hello called with name: " ++ [0xD800] ++ lit " ---")],
     Open None, Raise UnicodeEncodeError).
Proof. reflexivity. Qed.

Lemma say_hello_returns_witness :
  @say_hello stdout_state utf8_console (Some (lit "Zoe")) (Open None)
    = ([Stdout (lit "--- Tool: say_hello called with name: Zoe ---")], Open None,
       Ok (lit "Hello, Zoe!"))
  /\ outcome (@say_hello stdout_state utf8_console (Some (lit "Zoe")) Closed)
     = Raise ValueError.
Proof.
  split.
  - exact (proj1 (@say_hello_returns stdout_state utf8_console (lit "Zoe") (Open None))
             (Open None) eq_refl).
  - exact (proj1 (proj2 (@say_hello_returns stdout_state utf8_console (lit "Zoe") Closed))
             Closed ValueError eq_refl).
Defined.

(** After standard output was closed, the call raises and returns
    nothing. *)
Lemma say_goodbye_closed_stdout :
  @say_goodbye stdout_state utf8_console Closed
  = ([Stdout (lit "--- Tool: say_goodbye called ---")], Closed, Raise ValueError).
Proof. reflexivity. Qed.

Lemma say_goodbye_fixed_witness :
  @say_goodbye stdout_state utf8_console (Open (Some 1%nat))
    = ([Stdout (lit "--- Tool: say_goodbye called ---")], Open (Some 0%nat),
       Ok (lit "Goodbye! Have a great day."))
  /\ outcome (@say_goodbye stdout_state utf8_console (Open (Some 0%nat))) = Raise OSError.
Proof.
  split.
  - exact (proj1 (@say_goodbye_fixed stdout_state utf8_console (Open (Some 1%nat)))
             (Open (Some 0%nat)) eq_refl).
  - exact (proj1 (proj2 (@say_goodbye_fixed stdout_state utf8_console (Open (Some 0%nat))))
             (Open (Some 0%nat)) OSError eq_refl).
Defined.

Lemma flight_agent_model_witness :
  (exists agent,
      outcome (create_flight_search_agent
                 {[ lit "GEMINI_MODEL" := lit "gemini-2.0-flash" ]} 0%nat)
        = Ok (agent, tt)
      /\ model agent = lit "gemini-2.0-flash")
  /\ (exists agent,
        outcome (create_flight_search_agent
                   {[ lit "SERP_API_KEY" := lit "k" ]} 0%nat)
          = Ok (agent, tt)
        /\ model agent = lit "gemini-2.5-pro-exp-03-25").
Proof.
  split.
  - eexists. split; [reflexivity|].
    exact (proj1 (flight_agent_model {[ lit "GEMINI_MODEL" := lit "gemini-2.0-flash" ]} 0%nat)
             _ _ _ _ eq_refl).
  - eexists. split; [reflexivity|].
    exact (proj1 (flight_agent_model {[ lit "SERP_API_KEY" := lit "k" ]} 0%nat)
             _ _ _ _ eq_refl).
Defined.



(** The three ways out of the loop, each followed by one teardown. *)
Example main_after_break :
  main tt [Line (lit "exit")] 0%nat
    = ([Stdout (lit "Multi-Agent Flight Search App Type 'exit' to quit.");
        ReadLine (lit "User: ");
        Stdout (lit "Shutting down MCP connection...");
        Aclose;
        Stdout (lit "Shutdown complete.")],
       0%nat, Ok tt).
Proof. reflexivity. Qed.

Example main_after_end_of_input :
  main tt [] 0%nat
    = ([Stdout (lit "Multi-Agent Flight Search App Type 'exit' to quit.");
        ReadLine (lit "User: ");
        Stdout (lit "Shutting down MCP connection...");
        Aclose;
        Stdout (lit "Shutdown complete.")],
       0%nat, Raise EOFError).
Proof. reflexivity. Qed.

Example main_after_runner_exception :
  teardowns (trace (main tt [Line (lit "boom"); Line (lit "hello")] 0%nat)) = 1%nat
  /\ outcome (main tt [Line (lit "boom"); Line (lit "hello")] 0%nat)
       = Raise (OtherError (lit "RuntimeError")).
Proof. split; reflexivity. Qed.

Example main_after_interrupt :
  teardowns (trace (main tt [InputRaises KeyboardInterrupt; Line (lit "hello")] 0%nat))
    = 1%nat
  /\ outcome (main tt [InputRaises KeyboardInterrupt; Line (lit "hello")] 0%nat)
       = Raise KeyboardInterrupt.
Proof. split; reflexivity. Qed.

(** Standard output takes the banner and then fails (its reader is gone,
    the device is full).  The loop is left, by an exception of [input] or
    by the [break]; the print of the [finally] block raises, and [aclose]
    is not called: the world counts no close. *)
Lemma teardown_skipped_when_print_fails_witness :
  (@main excerpt_db piped_adk tt [InputRaises OSError]
     {| out := Open (Some 1%nat); runs := 0; closes := 0 |}
   = ([Stdout (lit "Multi-Agent Flight Search App Type 'exit' to quit.");
       ReadLine (lit "User: ");
       Stdout (lit "Shutting down MCP connection...")],
      {| out := Open (Some 0%nat); runs := 0; closes := 0 |}, Raise OSError)
   /\ teardowns (trace (@main excerpt_db piped_adk tt [InputRaises OSError]
                          {| out := Open (Some 1%nat); runs := 0; closes := 0 |}))
      = 0%nat)
  /\ (@main excerpt_db piped_adk tt [Line (lit "exit")]
        {| out := Open (Some 1%nat); runs := 0; closes := 0 |}
      = ([Stdout (lit "Multi-Agent Flight Search App Type 'exit' to quit.");
          ReadLine (lit "User: ");
          Stdout (lit "Shutting down MCP connection...")],
         {| out := Open (Some 0%nat); runs := 0; closes := 0 |}, Raise OSError)
      /\ teardowns (trace (@main excerpt_db piped_adk tt [Line (lit "exit")]
                             {| out := Open (Some 1%nat); runs := 0; closes := 0 |}))
         = 0%nat).
Proof.
  split.
  - exact (@teardown_skipped_when_print_fails excerpt_db piped_adk tt
             [InputRaises OSError]
             {| out := Open (Some 1%nat); runs := 0; closes := 0 |}
             {| out := Open (Some 0%nat); runs := 0; closes := 0 |}
             {| out := Open (Some 0%nat); runs := 0; closes := 0 |}
             {| out := Open (Some 0%nat); runs := 0; closes := 0 |}
             [ReadLine (lit "User: ")] (Raise OSError) OSError
             eq_refl eq_refl eq_refl).
  - exact (@teardown_skipped_when_print_fails excerpt_db piped_adk tt
             [Line (lit "exit")]
             {| out := Open (Some 1%nat); runs := 0; closes := 0 |}
             {| out := Open (Some 0%nat); runs := 0; closes := 0 |}
             {| out := Open (Some 0%nat); runs := 0; closes := 0 |}
             {| out := Open (Some 0%nat); runs := 0; closes := 0 |}
             [ReadLine (lit "User: ")] (Ok tt) OSError
             eq_refl eq_refl eq_refl).
Defined.

(** With standard output in order the same runs close the exit stack
    once. *)
Example main_closes_once :
  @main excerpt_db piped_adk tt [Line (lit "exit")]
    {| out := Open None; runs := 0; closes := 0 |}
  = ([Stdout (lit "Multi-Agent Flight Search App Type 'exit' to quit.");
      ReadLine (lit "User: ");
      Stdout (lit "Shutting down MCP connection...");
      Aclose;
      Stdout (lit "Shutdown complete.")],
     {| out := Open None; runs := 0; closes := 1 |}, Ok tt).
Proof. reflexivity. Qed.

(** ** The further properties at work *)

Lemma startup_connection_failure_witness :
  @create_flight_search_agent offline_adk
    {[ lit "GEMINI_MODEL" := lit "gemini-2.0-flash" ]} 0%nat
  = ([], 1%nat, Raise (OtherError (lit "FileNotFoundError"))).
Proof.
  apply (@startup_connection_failure offline_adk
           {[ lit "GEMINI_MODEL" := lit "gemini-2.0-flash" ]} 0%nat 1%nat
           (OtherError (lit "FileNotFoundError"))).
  reflexivity.
Defined.

Lemma default_model_only_when_unset_witness :
  exists flight,
    create_flight_search_agent {[ lit "GEMINI_MODEL" := [] ]} 0%nat
      = ([], 0%nat, Ok (flight, tt))
    /\ model flight = [].
Proof.
  eexists. split; [reflexivity|].
  apply (proj2 (default_model_only_when_unset (adk:=echo_adk)
                  {[ lit "GEMINI_MODEL" := [] ]} 0%nat 0%nat [] _ tt eq_refl)).
  reflexivity.
Defined.

Lemma get_weather_message_injective_witness :
  get_weather (lit "Boston") !! lit "error_message"
    <> get_weather (lit "boston") !! lit "error_message"
  /\ get_weather (lit "Boston") <> get_weather (lit "boston").
Proof.
  apply (get_weather_message_injective (db:=excerpt_db) (lit "Boston") (lit "boston")); discriminate.
Defined.

Lemma get_weather_ascii_witness :
  (@get_weather excerpt_db (lit "NEW YORK") !! lit "status" = Some (lit "success") <->
   map ascii_lower (lit "NEW YORK") = lit "new york")
  /\ @get_weather excerpt_db (lit "NEW YORK")
     = @get_weather {| tolower_full := fun _ c _ => [c; c] |} (lit "NEW YORK").
Proof.
  apply (get_weather_ascii excerpt_db {| tolower_full := fun _ c _ => [c; c] |}
           (lit "NEW YORK")).
  apply (bool_decide_unpack _). vm_compute. exact I.
Defined.

Lemma exit_check_ignores_padding_witness :
  strip ([0x09; 0x20] ++ lit "Quit" ++ [0xA0; 0x0A]) = strip (lit "Quit")
  /\ exit_requested ([0x09; 0x20] ++ lit "Quit" ++ [0xA0; 0x0A])
     = exit_requested (lit "Quit").
Proof.
  apply (exit_check_ignores_padding (db:=excerpt_db) [0x09; 0x20] (lit "Quit") [0xA0; 0x0A]);
    repeat constructor.
Defined.

Lemma exit_check_ascii_witness :
  (@exit_requested excerpt_db (lit "  EXIT") = true <->
   map ascii_lower (strip (lit "  EXIT")) = lit "exit"
   \/ map ascii_lower (strip (lit "  EXIT")) = lit "quit")
  /\ @exit_requested excerpt_db (lit "  EXIT")
     = @exit_requested {| tolower_full := fun _ c _ => [c; c] |} (lit "  EXIT").
Proof.
  apply (exit_check_ascii excerpt_db {| tolower_full := fun _ c _ => [c; c] |}
           (lit "  EXIT")).
  apply (bool_decide_unpack _). vm_compute. exact I.
Defined.

Lemma input_after_exit_ignored_witness :
  main_loop ([Line (lit "hi")] ++ Line (lit "exit") :: [Line (lit "boom")]) 0%nat
  = main_loop ([Line (lit "hi")] ++ Line (lit "exit") :: []) 0%nat.
Proof.
  apply (input_after_exit_ignored (db:=excerpt_db) (adk:=echo_adk) (lit "exit") [Line (lit "hi")]
           [Line (lit "boom")] [] 0%nat).
  reflexivity.
Defined.



Lemma teardown_outcome_witness :
  teardowns (trace (@main excerpt_db piped_adk tt []
                      {| out := Open (Some 2%nat); runs := 0; closes := 0 |}))
    = 1%nat
  /\ @main excerpt_db piped_adk tt []
       {| out := Open (Some 2%nat); runs := 0; closes := 0 |}
     = ([Stdout (lit "Multi-Agent Flight Search App Type 'exit' to quit.");
         ReadLine (lit "User: ");
         Stdout (lit "Shutting down MCP connection...");
         Aclose;
         Stdout (lit "Shutdown complete.")],
        {| out := Open (Some 0%nat); runs := 0; closes := 1 |}, Raise OSError).
Proof.
  pose proof (@teardown_outcome excerpt_db piped_adk tt []
                {| out := Open (Some 2%nat); runs := 0; closes := 0 |}
                {| out := Open (Some 1%nat); runs := 0; closes := 0 |}
                {| out := Open (Some 1%nat); runs := 0; closes := 0 |}
                {| out := Open (Some 0%nat); runs := 0; closes := 0 |}
                {| out := Open (Some 0%nat); runs := 0; closes := 1 |}
                [ReadLine (lit "User: ")] (Raise EOFError) None
                eq_refl eq_refl eq_refl eq_refl) as [Hcount Hrun].
  split; [exact Hcount|].
  exact (Hrun {| out := Open (Some 0%nat); runs := 0; closes := 1 |} (Some OSError) eq_refl).
Defined.

Lemma agent_names_distinct_witness :
  exists flight,
    create_flight_search_agent ∅ 0%nat = ([], 0%nat, Ok (flight, tt))
    /\ NoDup (map agent_name (root_agent flight :: sub_agents (root_agent flight))).
Proof.
  eexists. split; [reflexivity|].
  exact (agent_names_distinct (adk:=echo_adk) ∅ 0%nat 0%nat [] _ tt eq_refl).
Defined.

Lemma instructions_name_their_targets_witness :
  exists flight,
    create_flight_search_agent ∅ 0%nat = ([], 0%nat, Ok (flight, tt))
    /\ Forall (fun a => occurs_in (agent_name a) (agent_instruction (root_agent flight)))
         (sub_agents (root_agent flight))
    /\ Forall (fun a => forall fn,
                   In (FunctionTool fn) (agent_tools a) ->
                   occurs_in fn (agent_instruction a))
         [root_agent flight; greeting_agent; farewell_agent].
Proof.
  eexists. split; [reflexivity|].
  exact (instructions_name_their_targets (adk:=echo_adk) ∅ 0%nat 0%nat [] _ tt eq_refl).
Defined.
